(** * assets/add_new_tags_to_all.py: the [AddNewTags.process_file] hook

    The script subclasses [fileter.FilesIterator] and overrides one method,
    [process_file(self, path, dryrun)], which inserts a
    [<Padding Null="true" />] line in front of the closing [  </Asset>] tag
    of an XML asset file unless the file already mentions [Padding].

    Part I is the program:
    - [PyStr]: the Python [str] operations the hook uses ([in], [find],
      [replace]) on texts;
    - [Hook]: the hook itself, written once over an interface of file
      operations ([open], [read], [write], [close]) in a state-and-exception
      monad;
    - [MemFS]: an in-memory file system implementing that interface, on
      which the statements about file contents are made.
    Part II has the lemmas about each layer and the properties of the hook. *)

From Stdlib Require Import ZArith Ascii String.
From stdpp Require Import gmap strings list.

Local Open Scope nat_scope.

(** A text is the sequence of characters [infile.read()] returns. *)
Abbreviation text := (list ascii).

(** The text of a literal. *)
Definition str (s : string) : text := list_ascii_of_string s.

(** * Part I: the program *)

(** ** Python [str] operations *)
Module PyStr.

(** [s.startswith(p)] *)
Fixpoint startswith (p s : text) : bool :=
  match p, s with
  | [], _ => true
  | _ :: _, [] => false
  | a :: p', b :: s' => if Ascii.eqb a b then startswith p' s' else false
  end.

(** [s.find(sub)]: the lowest index where [sub] occurs in [s]; [None] is
    Python's [-1]. *)
Fixpoint find (sub s : text) : option nat :=
  if startswith sub s then Some 0
  else match s with
       | [] => None
       | _ :: s' => S <$> find sub s'
       end.

(** [sub in s] *)
Definition contains (sub s : text) : bool :=
  match find sub s with Some _ => true | None => false end.

(** The general case of [s.replace(old, new, n)] for a non-empty [old]:
    the occurrences are found left to right, each search starting after the
    previous match, and at most [n] of them are replaced. *)
Fixpoint replace_upto (n : nat) (old new s : text) : text :=
  match n with
  | 0 => s
  | S n' =>
      match find old s with
      | None => s
      | Some i => take i s ++ new ++ replace_upto n' old new (drop (i + length old) s)
      end
  end.

(** [s.replace("", new, n)]: [new] goes in front of each of the first [n]
    characters, and after the last one when [n] exceeds the length. *)
Fixpoint interleave (n : nat) (new s : text) : text :=
  match n with
  | 0 => s
  | S n' =>
      new ++ match s with
             | [] => []
             | c :: s' => c :: interleave n' new s'
             end
  end.

(** [s.replace(old, new, count)]; a negative [count] (the default is [-1])
    lifts the limit, which CPython implements by capping the number of
    replacements at what the length of [s] allows. *)
Definition replace (old new : text) (count : Z) (s : text) : text :=
  let n := if (count <? 0)%Z then S (length s) else Z.to_nat count in
  match old with
  | [] => interleave n new s
  | _ :: _ => replace_upto n old new s
  end.

(** [sep.join(parts)] *)
Fixpoint join (sep : text) (parts : list text) : text :=
  match parts with
  | [] => []
  | p :: ps =>
      match ps with
      | [] => p
      | _ :: _ => p ++ sep ++ join sep ps
      end
  end.

(** A text is unbordered when none of its proper non-empty prefixes is also
    a suffix: two occurrences of it can then never overlap. *)
Definition unbordered (t : text) : bool :=
  forallb (fun k => negb (bool_decide (take k t = drop (length t - k) t)))
          (seq 1 (length t - 1)).

End PyStr.

(** ** The hook over an interface of file operations *)
Module Hook.
Import PyStr.

(** The exceptions file operations raise. *)
Inductive exn :=
  | FileNotFoundError
  | IsADirectoryError
  | PermissionError
  | UnicodeDecodeError
  | UnsupportedOperation
  | OSError (errno : nat).

(** A call either returns a value or raises. *)
Inductive outcome (A : Type) :=
  | Returned (a : A)
  | Raised (e : exn).
Arguments Returned {A} a.
Arguments Raised {A} e.

(** Python code acting on a world [W]: the outcome and the world it leaves. *)
Definition IO (W A : Type) : Type := W -> outcome A * W.

Definition ret {W A} (a : A) : IO W A := fun w => (Returned a, w).

Definition bind {W A B} (c : IO W A) (k : A -> IO W B) : IO W B :=
  fun w =>
    match c w with
    | (Returned a, w') => k a w'
    | (Raised e, w') => (Raised e, w')
    end.

Notation "x <- c ;; k" := (bind c (fun x => k))
  (at level 100, c at next level, right associativity).

(** [try: c finally: cleanup]. The cleanup runs on both exits; an exception
    of the cleanup replaces the one in flight. *)
Definition finally {W A} (c : IO W A) (cleanup : IO W unit) : IO W A :=
  fun w =>
    match c w with
    | (r, w') =>
        match cleanup w' with
        | (Returned _, w'') => (r, w'')
        | (Raised e, w'') => (Raised e, w'')
        end
    end.

(** The second argument of [open]. *)
Inductive open_mode := ModeR | ModeW.

(** What the hook returns: [path] or, falling off the end, [None]. *)
Inductive value :=
  | PyNone
  | PyStr (s : string).

(** The file operations of the runtime. *)
Class FileIO (W : Type) := {
  file : Type;
  py_open : string -> open_mode -> IO W file;
  f_read : file -> IO W text;
  f_write : file -> text -> IO W unit;
  f_close : file -> IO W unit
}.

Definition dquote : ascii := ascii_of_nat 34.
Definition newline : ascii := ascii_of_nat 10.

(** ["Padding"] *)
Definition marker : text := str "Padding".

(** ["  </Asset>"] *)
Definition closing_tag : text := str "  </Asset>".

(** The inserted line, [    <Padding Null="true" />] and a line feed. *)
Definition padding_line : text :=
  str "    <Padding Null=" ++ [dquote] ++ str "true" ++ [dquote] ++ str " />"
    ++ [newline].

(** The triple-quoted literal: the inserted line, then the closing tag. *)
Definition padded_tag : text := padding_line ++ closing_tag.

Section process.
Context {W : Type} `{FileIO W}.

(** [with open(path, mode) as f: body] *)
Definition with_open {A} (path : string) (mode : open_mode)
    (body : file -> IO W A) : IO W A :=
  f <- py_open path mode ;;
  finally (body f) (f_close f).

(** Lines 13-14: [with open(path, "r") as infile: buffer = infile.read()] *)
Definition read_text (path : string) : IO W text :=
  with_open path ModeR (fun infile => f_read infile).

(** Lines 22-23: [with open(path, "w") as outfile: outfile.write(buffer)] *)
Definition write_text (path : string) (buffer : text) : IO W unit :=
  with_open path ModeW (fun outfile => f_write outfile buffer).

(** Lines 19-20: [buffer.replace("  </Asset>", ...)], no count given. *)
Definition substitute (buffer : text) : text :=
  replace closing_tag padded_tag (-1) buffer.

(** [AddNewTags.process_file(self, path, dryrun)] *)
Definition process_file (path : string) (dryrun : bool) : IO W value :=
  if dryrun then ret (PyStr path)
  else
    buffer <- read_text path ;;
    if contains marker buffer then ret (PyStr path)
    else
      let buffer := substitute buffer in
      _ <- write_text path buffer ;;
      ret PyNone.
End process.

End Hook.

(** ** An in-memory file system *)
Module MemFS.
Import PyStr Hook.

(** A directory entry: a directory, or a regular file with its text and
    whether the process may read and write it. Files hold text, as [read]
    returns it and [write] takes it: encodings and newline translation are
    not part of the model. *)
Inductive node :=
  | Directory
  | RegularFile (data : text) (readable writable : bool).

(** What the process did to the file system, in order. *)
Inductive event :=
  | EvOpen (path : string) (mode : open_mode)
  | EvRead (path : string)
  | EvWrite (path : string) (buffer : text)
  | EvClose (path : string).

Record memfs := MkFS {
  files : gmap string node;
  trace : list event
}.

Record handle := MkHandle {
  h_path : string;
  h_mode : open_mode
}.

Definition log (e : event) (st : memfs) : memfs :=
  MkFS (files st) (trace st ++ [e]).

Definition store (path : string) (n : node) (st : memfs) : memfs :=
  MkFS (<[path := n]> (files st)) (trace st).

(** [open(path, mode)]: mode ["r"] needs an existing readable file; mode
    ["w"] truncates a writable file, or creates the file. *)
Definition mem_open (path : string) (mode : open_mode) : IO memfs handle :=
  fun st =>
    match files st !! path with
    | None =>
        match mode with
        | ModeR => (Raised FileNotFoundError, st)
        | ModeW =>
            (Returned (MkHandle path ModeW),
             log (EvOpen path ModeW) (store path (RegularFile [] true true) st))
        end
    | Some Directory => (Raised IsADirectoryError, st)
    | Some (RegularFile data r w) =>
        match mode with
        | ModeR =>
            if r then (Returned (MkHandle path ModeR), log (EvOpen path ModeR) st)
            else (Raised PermissionError, st)
        | ModeW =>
            if w then
              (Returned (MkHandle path ModeW),
               log (EvOpen path ModeW) (store path (RegularFile [] r w) st))
            else (Raised PermissionError, st)
        end
    end.

(** [f.read()]: the whole text. *)
Definition mem_read (f : handle) : IO memfs text :=
  fun st =>
    match h_mode f, files st !! h_path f with
    | ModeR, Some (RegularFile data _ _) =>
        (Returned data, log (EvRead (h_path f)) st)
    | ModeR, _ => (Raised (OSError 9), st)
    | ModeW, _ => (Raised UnsupportedOperation, st)
    end.

(** [f.write(buffer)]: the text goes after what the file holds. *)
Definition mem_write (f : handle) (buffer : text) : IO memfs unit :=
  fun st =>
    match h_mode f, files st !! h_path f with
    | ModeW, Some (RegularFile data r w) =>
        (Returned tt,
         log (EvWrite (h_path f) buffer)
             (store (h_path f) (RegularFile (data ++ buffer) r w) st))
    | ModeW, _ => (Raised (OSError 9), st)
    | ModeR, _ => (Raised UnsupportedOperation, st)
    end.

Definition mem_close (f : handle) : IO memfs unit :=
  fun st => (Returned tt, log (EvClose (h_path f)) st).

#[export] Instance memfs_io : FileIO memfs := {
  file := handle;
  py_open := mem_open;
  f_read := mem_read;
  f_write := mem_write;
  f_close := mem_close
}.

(** The events that change a file. *)
Definition is_write (e : event) : bool :=
  match e with
  | EvOpen _ ModeW | EvWrite _ _ => true
  | _ => false
  end.

(** The text of the regular file at [path], if there is one. *)
Definition content (st : memfs) (path : string) : option text :=
  match files st !! path with
  | Some (RegularFile data _ _) => Some data
  | _ => None
  end.

(** What a successful [with open(path, "r")] block leaves in the trace. *)
Definition read_events (path : string) : list event :=
  [EvOpen path ModeR; EvRead path; EvClose path].

(** What a successful [with open(path, "w")] block leaves in the trace. *)
Definition write_events (path : string) (buffer : text) : list event :=
  [EvOpen path ModeW; EvWrite path buffer; EvClose path].

(** A file system holding one readable and writable file. *)
Definition single (path : string) (data : text) : memfs :=
  MkFS {[ path := RegularFile data true true ]} [].

End MemFS.

(** ** The substitution in the words of the specification *)
Module Spec.
Import PyStr Hook.

(** The specification's wording of the substitution policy: "replace the
    first occurrence of a fixed closing-tag string with that same string
    preceded by a fixed inserted line", which is [replace] with a count of
    one. It is here to be compared with [Hook.substitute]. *)
Definition substitute_first_only (buffer : text) : text :=
  replace closing_tag padded_tag 1 buffer.

End Spec.

(** ** Sample files *)
Module Samples.
Import PyStr Hook MemFS.

Definition lines (ls : list text) : text := join [newline] ls.

(** An asset file the transform has not seen. *)
Definition unpadded : text :=
  lines [str "<XnaContent>"; str "  <Asset>"; str "    <Scale>1</Scale>";
         closing_tag; str "</XnaContent>"].

(** An asset file whose closing tag is not indented by two spaces. *)
Definition untagged : text :=
  lines [str "<XnaContent>"; str "<Asset>"; str "</Asset>"; str "</XnaContent>"].

(** Two assets in one file. *)
Definition two_assets : text :=
  lines [str "  <Asset>"; closing_tag; str "  <Asset>"; closing_tag].

(** An untransformed asset with an element whose name has the marker in it. *)
Definition inner_padding : text :=
  lines [str "  <Asset>"; str "    <InnerPadding>4</InnerPadding>"; closing_tag].

(** A file system with a file the process may read but not write. *)
Definition read_only (path : string) (data : text) : memfs :=
  MkFS {[ path := RegularFile data true false ]} [].

(** A file system with nothing in it. *)
Definition empty_fs : memfs := MkFS ∅ [].

End Samples.

(** ** What a caller can observe of a directory entry besides its text *)
Module Observe.
Import MemFS.

(** The permissions of a regular file; a directory has none here. *)
Definition node_mode (n : node) : option (bool * bool) :=
  match n with
  | Directory => None
  | RegularFile _ r w => Some (r, w)
  end.

End Observe.

(** * Part II: properties *)

(** ** Facts about the [str] operations *)
Module PyStrFacts.
Import PyStr.

Example find_ex : find (str "lo") (str "hello lo") = Some 3.
Proof. reflexivity. Qed.

Example replace_all_ex :
  replace (str "ab") (str "x") (-1) (str "abcabab") = str "xcxx".
Proof. reflexivity. Qed.

Example replace_count_ex :
  replace (str "ab") (str "x") 2 (str "abcabab") = str "xcxab".
Proof. reflexivity. Qed.

Example replace_overlap_ex :
  replace (str "aa") (str "b") (-1) (str "aaaaa") = str "bba".
Proof. reflexivity. Qed.

Example replace_empty_ex :
  replace [] (str "-") (-1) (str "abc") = str "-a-b-c-".
Proof. reflexivity. Qed.

Example replace_empty_count_ex :
  replace [] (str "-") 2 (str "abc") = str "-a-bc".
Proof. reflexivity. Qed.

Example join_ex : join (str ", ") [str "a"; str "b"; str "c"] = str "a, b, c".
Proof. reflexivity. Qed.

(** *** [startswith] *)

Lemma startswith_spec p s : startswith p s = true <-> exists r, s = p ++ r.
Proof.
  revert s. induction p as [|a p IH]; intros s; simpl.
  - split; [intros _; by exists s | done].
  - destruct s as [|b s].
    + split; [done | intros [r Hr]; discriminate].
    + destruct (Ascii.eqb_spec a b) as [->|Hne].
      * rewrite IH. split; intros [r Hr]; exists r; [by rewrite Hr | by injection Hr].
      * split; [done | intros [r Hr]; congruence].
Qed.

Lemma startswith_app p r : startswith p (p ++ r) = true.
Proof. apply startswith_spec. by exists r. Qed.

(** *** [find] and [in] *)

Lemma find_unfold sub s :
  find sub s =
  if startswith sub s then Some 0
  else match s with [] => None | _ :: s' => S <$> find sub s' end.
Proof. by destruct s. Qed.

Lemma find_here sub r : find sub (sub ++ r) = Some 0.
Proof. by rewrite find_unfold, startswith_app. Qed.

Lemma startswith_split sub s :
  startswith sub s = true -> s = sub ++ drop (length sub) s.
Proof. intros [r ->]%startswith_spec. by rewrite drop_app_length. Qed.

(** The index [find] returns is the start of an occurrence. *)
Lemma find_Some_split sub s i :
  find sub s = Some i -> s = take i s ++ sub ++ drop (i + length sub) s.
Proof.
  revert i. induction s as [|c s IH]; intros i; rewrite find_unfold;
    destruct (startswith _ _) eqn:Hsw; try discriminate;
    try (intros [= <-]; by apply startswith_split).
  destruct (find sub s) as [j|] eqn:Hj; [|discriminate].
  intros [= <-]. simpl. f_equal. by apply IH.
Qed.

(** No occurrence starts before the index [find] returns. *)
Lemma find_Some_first sub s i j :
  find sub s = Some i -> j < i -> startswith sub (drop j s) = false.
Proof.
  revert i j. induction s as [|c s IH]; intros i j; rewrite find_unfold;
    destruct (startswith _ _) eqn:Hsw; try discriminate;
    try (intros [= <-]; lia).
  destruct (find sub s) as [k|] eqn:Hk; [|discriminate].
  intros [= <-] Hlt. destruct j as [|j]; [done|].
  simpl. apply (IH k); [done | lia].
Qed.

Lemma contains_find_None sub s : contains sub s = false <-> find sub s = None.
Proof. unfold contains. by destruct (find sub s). Qed.

Lemma contains_find_Some sub s :
  contains sub s = true <-> exists i, find sub s = Some i.
Proof.
  unfold contains. destruct (find sub s) as [i|]; split; try done.
  - by exists i.
  - by intros [? ?].
Qed.

(** [sub in s] holds exactly when [s] has [sub] somewhere inside it. *)
Lemma contains_spec sub s :
  contains sub s = true <-> exists a b, s = a ++ sub ++ b.
Proof.
  split.
  - intros [i Hi]%contains_find_Some. apply find_Some_split in Hi. eauto.
  - intros (a & b & ->). apply contains_find_Some.
    induction a as [|c a [i IH]].
    + exists 0. exact (find_here sub b).
    + change ((c :: a) ++ sub ++ b) with (c :: (a ++ sub ++ b)).
      rewrite find_unfold. destruct (startswith _ _); [by exists 0|].
      exists (S i). by rewrite IH.
Qed.

Lemma contains_app_l sub a b : contains sub a = true -> contains sub (a ++ b) = true.
Proof.
  rewrite !contains_spec. intros (x & y & ->). exists x, (y ++ b).
  by rewrite <- !app_assoc.
Qed.

Lemma contains_app_r sub a b : contains sub b = true -> contains sub (a ++ b) = true.
Proof.
  rewrite !contains_spec. intros (x & y & ->). exists (a ++ x), y.
  by rewrite <- !app_assoc.
Qed.

Lemma contains_cons_false sub c s :
  contains sub (c :: s) = false -> contains sub s = false.
Proof.
  intros Hc. destruct (contains sub s) eqn:Hs; [|done].
  pose proof (contains_app_r sub [c] s Hs) as Hcs. simpl in Hcs. congruence.
Qed.

(** *** Unbordered texts *)

Lemma unbordered_spec t k :
  unbordered t = true -> 0 < k < length t ->
  take k t <> drop (length t - k) t.
Proof.
  unfold unbordered. rewrite forallb_forall. intros Hall Hk.
  specialize (Hall k). rewrite in_seq in Hall.
  apply negb_true_iff, bool_decide_eq_false in Hall; [done | lia].
Qed.

(** In front of an occurrence of an unbordered [old], a text that has no
    [old] inside cannot hide an earlier occurrence. *)
Lemma startswith_straddle old q r :
  unbordered old = true -> q <> [] -> contains old q = false ->
  startswith old (q ++ old ++ r) = false.
Proof.
  intros Hub Hq Hc. destruct (startswith _ _) eqn:Hsw; [|done].
  apply startswith_spec in Hsw as [x Hx].
  destruct (decide (length old <= length q)) as [Hle|Hgt].
  - assert (take (length old) q = old) as Hpre.
    { apply (f_equal (take (length old))) in Hx.
      by rewrite take_app_le, take_app_length in Hx. }
    assert (contains old q = true); [|congruence].
    apply contains_spec. exists [], (drop (length old) q). simpl.
    by rewrite <- Hpre at 1; rewrite take_drop.
  - set (t2 := drop (length q) old).
    assert (old = q ++ t2) as Hold.
    { apply (f_equal (take (length q))) in Hx.
      rewrite take_app_length, take_app_le in Hx by lia.
      unfold t2. by rewrite Hx at 1; rewrite take_drop. }
    assert (length old = length q + length t2) as Hlen.
    { rewrite Hold at 1. by rewrite length_app. }
    assert (0 < length q) by (destruct q; [done | simpl; lia]).
    assert (take (length t2) old = t2) as Hpre.
    { rewrite Hold in Hx at 2. rewrite <- app_assoc in Hx.
      apply app_inv_head in Hx. apply (f_equal (take (length t2))) in Hx.
      by rewrite take_app_le, take_app_length in Hx by lia. }
    exfalso. apply (unbordered_spec old (length t2) Hub); [lia|].
    rewrite Hpre. replace (length old - length t2) with (length q) by lia.
    done.
Qed.

(** The first occurrence of an unbordered [old] in [p ++ old ++ r], when
    [p] has none, is the one written out. *)
Lemma find_first_occurrence old p r :
  unbordered old = true -> contains old p = false ->
  find old (p ++ old ++ r) = Some (length p).
Proof.
  intros Hub. induction p as [|c p IH]; intros Hc.
  - exact (find_here old r).
  - change ((c :: p) ++ old ++ r) with (c :: (p ++ old ++ r)).
    rewrite find_unfold.
    change (c :: (p ++ old ++ r)) with ((c :: p) ++ old ++ r).
    rewrite startswith_straddle by done.
    simpl. by rewrite IH by (by eapply contains_cons_false).
Qed.

(** *** [replace] *)

Lemma replace_upto_absent n old new s :
  contains old s = false -> replace_upto n old new s = s.
Proof.
  intros Hc%contains_find_None. destruct n; simpl; [done|]. by rewrite Hc.
Qed.

(** A text without [old] is returned as it is. *)
Lemma replace_absent old new count s :
  old <> [] -> contains old s = false -> replace old new count s = s.
Proof.
  intros Hold Hc. unfold replace. destruct old; [done|].
  by apply replace_upto_absent.
Qed.

(** With no count, the limit is more than the text has room for. *)
Lemma replace_unlimited old new s :
  old <> [] -> replace old new (-1) s = replace_upto (S (length s)) old new s.
Proof. by destruct old. Qed.

(** The first occurrence is replaced and what follows it is processed in
    turn. *)
Lemma replace_upto_found n old new s i :
  find old s = Some i ->
  replace_upto (S n) old new s =
  take i s ++ new ++ replace_upto n old new (drop (i + length old) s).
Proof. intros Hi. simpl. by rewrite Hi. Qed.

(** The result of replacing in a text that has [old] holds [new], and so
    whatever [new] holds. *)
Lemma replace_contains m old new s :
  old <> [] -> contains old s = true -> contains m new = true ->
  contains m (replace old new (-1) s) = true.
Proof.
  intros Hold [i Hi]%contains_find_Some Hm.
  rewrite replace_unlimited, (replace_upto_found _ _ _ _ i) by done.
  by apply contains_app_r, contains_app_l.
Qed.

(** Replacing in parts joined by an unbordered [old]: with enough
    replacements allowed, every separator becomes [new]. *)
Lemma replace_upto_join n old new parts :
  unbordered old = true -> old <> [] ->
  Forall (fun p => contains old p = false) parts ->
  length parts <= S n ->
  replace_upto n old new (join old parts) = join new parts.
Proof.
  intros Hub Hold Hall. revert n. induction Hall as [|p ps Hp Hps IH]; intros n Hn.
  - apply replace_upto_absent. by destruct old.
  - destruct ps as [|q ps].
    + simpl. by apply replace_upto_absent.
    + change (join old (p :: q :: ps)) with (p ++ old ++ join old (q :: ps)).
      change (join new (p :: q :: ps)) with (p ++ new ++ join new (q :: ps)).
      destruct n as [|n]; [simpl in Hn; lia|].
      rewrite (replace_upto_found _ _ _ _ (length p))
        by (by apply find_first_occurrence).
      rewrite take_app_length.
      rewrite (app_assoc p old), drop_app_length'
        by (rewrite length_app; lia).
      rewrite IH; [done | simpl in *; lia].
Qed.

Lemma length_join_ge sep parts :
  sep <> [] -> length parts <= S (length (join sep parts)).
Proof.
  intros Hsep. induction parts as [|p ps IH]; [simpl; lia|].
  destruct ps as [|q ps]; [simpl; lia|].
  change (join sep (p :: q :: ps)) with (p ++ sep ++ join sep (q :: ps)).
  rewrite !length_app. destruct sep; [done|]. simpl in *. lia.
Qed.

(** [replace] with no count turns [old.join(parts)] into [new.join(parts)],
    for an unbordered [old] that no part holds. *)
Lemma replace_join old new parts :
  unbordered old = true -> old <> [] ->
  Forall (fun p => contains old p = false) parts ->
  replace old new (-1) (join old parts) = join new parts.
Proof.
  intros Hub Hold Hall. rewrite replace_unlimited by done.
  apply replace_upto_join; try done.
  etrans; [by apply (length_join_ge old)|]. lia.
Qed.

(** The text in front of the first occurrence holds no occurrence. *)
Lemma find_Some_prefix_clean old s i :
  old <> [] -> find old s = Some i -> contains old (take i s) = false.
Proof.
  intros Hold Hi. destruct (contains old (take i s)) eqn:Hc; [|done].
  apply contains_spec in Hc as (a & b & Hab).
  assert (length a < i) as Hlt.
  { pose proof (length_take s i) as Hle. rewrite Hab in Hle.
    rewrite !length_app in Hle. destruct old; [done | simpl in Hle; lia]. }
  pose proof (find_Some_first _ _ _ _ Hi Hlt) as Hsw.
  rewrite <- (take_drop i s), Hab, <- !app_assoc, drop_app_length in Hsw.
  by rewrite startswith_app in Hsw.
Qed.

(** Every text is [old.join(parts)] for parts that hold no [old]: the parts
    are what lies between the occurrences [replace] finds. *)
Lemma split_at_occurrences old s :
  old <> [] ->
  exists parts,
    parts <> [] /\ s = join old parts /\
    Forall (fun p => contains old p = false) parts.
Proof.
  intros Hold. remember (length s) as n eqn:Hn. revert s Hn.
  induction n as [n IH] using lt_wf_ind. intros s ->.
  destruct (find old s) as [i|] eqn:Hi.
  - pose proof (find_Some_split _ _ _ Hi) as Hs.
    destruct (IH (length (drop (i + length old) s))
                (ltac:(rewrite length_drop;
                       apply (f_equal length) in Hs;
                       rewrite !length_app in Hs;
                       destruct old; [done | simpl in *; lia]))
                _ eq_refl)
      as (parts & Hne & Hrest & Hall).
    exists (take i s :: parts). split; [done|]. split.
    + destruct parts as [|q ps]; [done|].
      change (join old (take i s :: q :: ps))
        with (take i s ++ old ++ join old (q :: ps)).
      by rewrite <- Hrest.
    + constructor; [by apply find_Some_prefix_clean | done].
  - exists [s]. repeat split; [done|].
    constructor; [by apply contains_find_None | constructor].
Qed.

(** A text with one occurrence. *)
Lemma replace_all_single old new p q :
  unbordered old = true -> old <> [] ->
  contains old p = false -> contains old q = false ->
  replace old new (-1) (p ++ old ++ q) = p ++ new ++ q.
Proof.
  intros Hub Hold Hp Hq.
  apply (replace_join old new [p; q] Hub Hold). by repeat constructor.
Qed.

(** With a count of one, only the first separator is replaced. *)
Lemma replace_once_join old new p rest :
  unbordered old = true -> old <> [] -> contains old p = false ->
  replace old new 1 (p ++ old ++ rest) = p ++ new ++ rest.
Proof.
  intros Hub Hold Hp.
  replace (replace old new 1 (p ++ old ++ rest))
    with (replace_upto 1 old new (p ++ old ++ rest)) by (by destruct old).
  rewrite (replace_upto_found _ _ _ _ (length p))
    by (by apply find_first_occurrence).
  rewrite take_app_length.
  by rewrite (app_assoc p old), drop_app_length' by (rewrite length_app; lia).
Qed.

End PyStrFacts.

(** ** Facts about the hook, whatever the file operations do *)
Module HookFacts.
Import PyStr PyStrFacts Hook.

Section generic.
Context {W : Type} `{FileIO W}.

Lemma process_file_dry (path : string) (w : W) :
  process_file path true w = (Returned (PyStr path), w).
Proof. reflexivity. Qed.

Lemma process_file_read_raised (path : string) (w w' : W) (e : exn) :
  read_text path w = (Raised e, w') ->
  process_file path false w = (Raised e, w').
Proof. intros Hr. unfold process_file, bind. by rewrite Hr. Qed.

Lemma process_file_marked (path : string) (w w' : W) (buffer : text) :
  read_text path w = (Returned buffer, w') ->
  contains marker buffer = true ->
  process_file path false w = (Returned (PyStr path), w').
Proof. intros Hr Hm. unfold process_file, bind. by rewrite Hr, Hm. Qed.

Lemma process_file_write_raised (path : string) (w w1 w2 : W)
    (buffer : text) (e : exn) :
  read_text path w = (Returned buffer, w1) ->
  contains marker buffer = false ->
  write_text path (substitute buffer) w1 = (Raised e, w2) ->
  process_file path false w = (Raised e, w2).
Proof.
  intros Hr Hm Hw. unfold process_file, bind. by rewrite Hr, Hm, Hw.
Qed.

Lemma process_file_written (path : string) (w w1 w2 : W) (buffer : text) :
  read_text path w = (Returned buffer, w1) ->
  contains marker buffer = false ->
  write_text path (substitute buffer) w1 = (Returned tt, w2) ->
  process_file path false w = (Returned PyNone, w2).
Proof.
  intros Hr Hm Hw. unfold process_file, bind. by rewrite Hr, Hm, Hw.
Qed.
End generic.

(** *** The two constants *)

Lemma closing_tag_unbordered : unbordered closing_tag = true.
Proof. reflexivity. Qed.

Lemma closing_tag_nonempty : closing_tag <> [].
Proof. discriminate. Qed.

Lemma padded_tag_marked : contains marker padded_tag = true.
Proof. reflexivity. Qed.

Lemma substitute_absent (buffer : text) :
  contains closing_tag buffer = false -> substitute buffer = buffer.
Proof. apply replace_absent, closing_tag_nonempty. Qed.

Lemma substitute_marked (buffer : text) :
  contains closing_tag buffer = true ->
  contains marker (substitute buffer) = true.
Proof.
  intros Ht. apply replace_contains;
    [apply closing_tag_nonempty | done | apply padded_tag_marked].
Qed.

End HookFacts.

(** ** Facts about the hook on the in-memory file system *)
Module MemFSFacts.
Import PyStr PyStrFacts Hook HookFacts MemFS.

Lemma read_text_ok st path data w :
  files st !! path = Some (RegularFile data true w) ->
  read_text path st =
  (Returned data, MkFS (files st) (trace st ++ read_events path)).
Proof.
  intros Hf. unfold read_text, with_open, bind, finally. simpl.
  unfold mem_open. rewrite Hf. unfold mem_read. simpl. rewrite Hf.
  unfold mem_close, log. simpl. by rewrite <- !app_assoc.
Qed.

Lemma write_text_ok st path data r buffer :
  files st !! path = Some (RegularFile data r true) ->
  write_text path buffer st =
  (Returned tt,
   MkFS (<[path := RegularFile buffer r true]> (files st))
        (trace st ++ write_events path buffer)).
Proof.
  intros Hf. unfold write_text, with_open, bind, finally. simpl.
  unfold mem_open. rewrite Hf. unfold mem_write. simpl.
  rewrite lookup_insert_eq. unfold mem_close, log, store. simpl.
  by rewrite insert_insert_eq, <- !app_assoc.
Qed.

Lemma write_text_denied st path data r buffer :
  files st !! path = Some (RegularFile data r false) ->
  write_text path buffer st = (Raised PermissionError, st).
Proof.
  intros Hf. unfold write_text, with_open, bind, finally. simpl.
  unfold mem_open. by rewrite Hf.
Qed.

Lemma read_text_denied st path data w :
  files st !! path = Some (RegularFile data false w) ->
  read_text path st = (Raised PermissionError, st).
Proof.
  intros Hf. unfold read_text, with_open, bind, finally. simpl.
  unfold mem_open. by rewrite Hf.
Qed.

Lemma read_text_missing st path :
  files st !! path = None ->
  read_text path st = (Raised FileNotFoundError, st).
Proof.
  intros Hf. unfold read_text, with_open, bind, finally. simpl.
  unfold mem_open. by rewrite Hf.
Qed.

Lemma read_text_directory st path :
  files st !! path = Some Directory ->
  read_text path st = (Raised IsADirectoryError, st).
Proof.
  intros Hf. unfold read_text, with_open, bind, finally. simpl.
  unfold mem_open. by rewrite Hf.
Qed.

(** A marked file: read, then returned. *)
Lemma process_file_mem_marked st path data w :
  files st !! path = Some (RegularFile data true w) ->
  contains marker data = true ->
  process_file path false st =
  (Returned (PyStr path), MkFS (files st) (trace st ++ read_events path)).
Proof.
  intros Hf Hm. eapply process_file_marked; [by eapply read_text_ok | done].
Qed.

(** An unmarked file the process may write: read, then written. *)
Lemma process_file_mem_written st path data :
  files st !! path = Some (RegularFile data true true) ->
  contains marker data = false ->
  process_file path false st =
  (Returned PyNone,
   MkFS (<[path := RegularFile (substitute data) true true]> (files st))
        (trace st ++ read_events path ++ write_events path (substitute data))).
Proof.
  intros Hf Hm.
  eapply process_file_written; [by eapply read_text_ok | done |].
  erewrite write_text_ok by (simpl; exact Hf). simpl.
  by rewrite <- app_assoc.
Qed.

(** What an unmarked file holds after the run. *)
Lemma content_after_write st path data :
  files st !! path = Some (RegularFile data true true) ->
  contains marker data = false ->
  content (snd (process_file path false st)) path = Some (substitute data).
Proof.
  intros Hf Hm. rewrite (process_file_mem_written _ _ _ Hf Hm).
  unfold content. cbn [snd files]. by rewrite lookup_insert_eq.
Qed.

(** An unmarked file the process may not write: read, then the error. *)
Lemma process_file_mem_denied st path data :
  files st !! path = Some (RegularFile data true false) ->
  contains marker data = false ->
  process_file path false st =
  (Raised PermissionError, MkFS (files st) (trace st ++ read_events path)).
Proof.
  intros Hf Hm.
  eapply process_file_write_raised; [by eapply read_text_ok | done |].
  by erewrite write_text_denied by (simpl; exact Hf).
Qed.

(** The files a run with [dryrun=False] leaves. *)
Lemma process_file_mem_files st path :
  files (snd (process_file path false st)) =
  match files st !! path with
  | Some (RegularFile data true true) =>
      if contains marker data then files st
      else <[path := RegularFile (substitute data) true true]> (files st)
  | _ => files st
  end.
Proof.
  destruct (files st !! path) as [[|data [] w]|] eqn:Hf.
  - by rewrite (process_file_read_raised _ _ _ _ (read_text_directory _ _ Hf)).
  - destruct (contains marker data) eqn:Hm.
    + rewrite (process_file_mem_marked _ _ _ _ Hf Hm). by destruct w.
    + destruct w.
      * by rewrite (process_file_mem_written _ _ _ Hf Hm).
      * by rewrite (process_file_mem_denied _ _ _ Hf Hm).
  - by rewrite (process_file_read_raised _ _ _ _ (read_text_denied _ _ _ _ Hf)).
  - by rewrite (process_file_read_raised _ _ _ _ (read_text_missing _ _ Hf)).
Qed.

Lemma writes_read_events tr path :
  List.filter is_write (tr ++ read_events path) = List.filter is_write tr.
Proof. rewrite List.filter_app. simpl. by rewrite app_nil_r. Qed.

End MemFSFacts.

(** ** The properties of [process_file] *)

Import PyStr PyStrFacts Hook HookFacts MemFS MemFSFacts Samples.

(** *** The marker after a run *)

(** C1 cannot hold as stated: a file with neither the marker nor the closing
    tag is rewritten as it was, so the marker is still missing after a run
    with [dryrun=False]. Here the closing tag is not indented. *)
Lemma marker_absent_after_run :
  contains marker untagged = false /\
  process_file "Content/menu.xml" false (single "Content/menu.xml" untagged)
  = (Returned PyNone,
     MkFS (files (single "Content/menu.xml" untagged))
          (read_events "Content/menu.xml"
             ++ write_events "Content/menu.xml" untagged)) /\
  content (snd (process_file "Content/menu.xml" false
                  (single "Content/menu.xml" untagged)))
          "Content/menu.xml" = Some untagged.
Proof. by vm_compute. Qed.

(** C1, as amended: for every readable and writable file whose content does
    not contain the marker ["Padding"] and does contain the closing tag
    ["  </Asset>"], the content after [process_file] with [dryrun=False] is
    the substituted text, which contains the marker. *)
Theorem marker_present_after_run (st : memfs) (path : string) (data : text) :
  files st !! path = Some (RegularFile data true true) ->
  contains marker data = false ->
  contains closing_tag data = true ->
  content (snd (process_file path false st)) path = Some (substitute data) /\
  contains marker (substitute data) = true.
Proof.
  intros Hf Hm Ht. split.
  - by apply content_after_write.
  - by apply substitute_marked.
Qed.

Lemma marker_present_after_run_witness :
  content (snd (process_file "Content/menu.xml" false
                  (single "Content/menu.xml" unpadded)))
          "Content/menu.xml" = Some (substitute unpadded) /\
  contains marker (substitute unpadded) = true.
Proof.
  apply (marker_present_after_run (single "Content/menu.xml" unpadded));
    reflexivity.
Defined.

(** *** Dry runs *)

Section dry_run.
Context {W : Type} `{FileIO W}.

(** C2: with [dryrun=True], [process_file] returns [path] and leaves the
    world exactly as it was, whatever the file holds and whatever the file
    operations would have done: none of them is called. *)
Theorem dry_run_changes_nothing (path : string) (w : W) :
  process_file path true w = (Returned (PyStr path), w).
Proof. unfold process_file. reflexivity. Qed.

End dry_run.

(** *** Files that already have the marker *)

(** C3: for a file whose content contains the marker, [process_file] with
    either value of [dryrun] leaves every file as it was and adds no
    open-for-writing and no write to the trace. *)
Theorem marked_file_untouched (st : memfs) (path : string) (data : text)
    (r w dryrun : bool) :
  files st !! path = Some (RegularFile data r w) ->
  contains marker data = true ->
  files (snd (process_file path dryrun st)) = files st /\
  List.filter is_write (trace (snd (process_file path dryrun st)))
  = List.filter is_write (trace st).
Proof.
  intros Hf Hm. destruct dryrun; [done|]. destruct r.
  - rewrite (process_file_mem_marked _ _ _ _ Hf Hm). simpl.
    by rewrite writes_read_events.
  - by rewrite (process_file_read_raised _ _ _ _ (read_text_denied _ _ _ _ Hf)).
Qed.

Lemma marked_file_untouched_witness :
  files (snd (process_file "Content/menu.xml" false
                (single "Content/menu.xml" (substitute unpadded))))
  = files (single "Content/menu.xml" (substitute unpadded)) /\
  List.filter is_write
    (trace (snd (process_file "Content/menu.xml" false
                   (single "Content/menu.xml" (substitute unpadded)))))
  = List.filter is_write (trace (single "Content/menu.xml" (substitute unpadded))).
Proof.
  apply (marked_file_untouched _ _ (substitute unpadded) true true false);
    reflexivity.
Defined.

(** *** Running twice *)

(** C4: after one run with [dryrun=False], a second run leaves every file as
    the first run left it, for every file system and path (missing,
    unreadable and read-only files included). *)
Theorem second_pass_is_noop (st : memfs) (path : string) :
  files (snd (process_file path false (snd (process_file path false st))))
  = files (snd (process_file path false st)).
Proof.
  rewrite (process_file_mem_files (snd (process_file path false st))).
  rewrite (process_file_mem_files st).
  destruct (files st !! path) as [[|data [] []]|] eqn:Hf; try by rewrite Hf.
  destruct (contains marker data) eqn:Hm; [by rewrite Hf, Hm|].
  rewrite lookup_insert_eq.
  destruct (contains marker (substitute data)) eqn:Hm'; [done|].
  destruct (contains closing_tag data) eqn:Ht.
  - by rewrite substitute_marked in Hm'.
  - rewrite !(substitute_absent data Ht). by rewrite insert_insert_eq.
Qed.

(** *** Which occurrences are replaced *)

(** C5 cannot hold as stated: [replace] is called without a count, so in a
    file with two closing tags both get the inserted line, while the
    substitution in the specification's words changes the first only. *)
Lemma later_occurrences_replaced :
  contains marker two_assets = false /\
  content (snd (process_file "Content/menu.xml" false
                  (single "Content/menu.xml" two_assets)))
          "Content/menu.xml"
  = Some (lines [str "  <Asset>"; padded_tag; str "  <Asset>"; padded_tag]) /\
  Spec.substitute_first_only two_assets
  = lines [str "  <Asset>"; padded_tag; str "  <Asset>"; closing_tag] /\
  substitute two_assets <> Spec.substitute_first_only two_assets.
Proof.
  repeat split; by vm_compute.
Qed.

(** C5, as amended: for every file content not containing the marker, the
    substitution replaces every occurrence of the closing tag
    ["  </Asset>"] with the inserted padding line followed by that closing
    tag. The content is a sequence of parts that hold no closing tag,
    separated by closing tags; however it is written so, the file holds the
    same parts separated by the padded tag afterwards. *)
Theorem every_occurrence_replaced (st : memfs) (path : string) (data : text) :
  files st !! path = Some (RegularFile data true true) ->
  contains marker data = false ->
  (exists parts,
     data = join closing_tag parts /\
     Forall (fun p => contains closing_tag p = false) parts) /\
  (forall parts,
     data = join closing_tag parts ->
     Forall (fun p => contains closing_tag p = false) parts ->
     content (snd (process_file path false st)) path
     = Some (join (padding_line ++ closing_tag) parts)).
Proof.
  intros Hf Hm. split.
  - destruct (split_at_occurrences closing_tag data closing_tag_nonempty)
      as (parts & _ & Hd & Hall).
    by exists parts.
  - intros parts -> Hparts. rewrite (content_after_write _ _ _ Hf Hm).
    f_equal. apply replace_join;
      [apply closing_tag_unbordered | apply closing_tag_nonempty | done].
Qed.

Lemma every_occurrence_replaced_witness :
  content (snd (process_file "Content/menu.xml" false
                  (single "Content/menu.xml" two_assets)))
          "Content/menu.xml"
  = Some (join (padding_line ++ closing_tag)
               [str "  <Asset>" ++ [newline];
                [newline] ++ str "  <Asset>" ++ [newline];
                []]).
Proof.
  apply (proj2 (every_occurrence_replaced
                  (single "Content/menu.xml" two_assets)
                  "Content/menu.xml" two_assets eq_refl eq_refl));
    [reflexivity | by repeat constructor].
Defined.

(** *** The value returned *)

(** C6 fails on the code: on the branch that substitutes and writes, the
    method falls off its end, so the call returns [None], not [path]. The
    file is written all the same. *)
Theorem write_branch_returns_none :
  contains marker unpadded = false /\
  fst (process_file "Content/menu.xml" false (single "Content/menu.xml" unpadded))
  = Returned PyNone /\
  content (snd (process_file "Content/menu.xml" false
                  (single "Content/menu.xml" unpadded)))
          "Content/menu.xml" = Some (substitute unpadded).
Proof. by vm_compute. Qed.

(** *** The order of the dry-run test and the read *)

(** C7 cannot hold as stated: with [dryrun=True] the method returns before
    it opens the file, so where reading raises (here the file is missing)
    the dry run still returns [path], and the trace stays empty. *)
Lemma dry_run_never_reads :
  read_text "Content/gone.xml" empty_fs = (Raised FileNotFoundError, empty_fs) /\
  process_file "Content/gone.xml" true empty_fs
  = (Returned (PyStr "Content/gone.xml"), empty_fs) /\
  trace (snd (process_file "Content/gone.xml" true empty_fs)) = [].
Proof. by vm_compute. Qed.

Section errors.
Context {W : Type} `{FileIO W}.

(** C7, as amended: on every invocation [process_file] tests [dryrun]
    first and, when it is true, returns [path] at once: the world is left
    as it was, so the file is neither opened nor read and no marker is
    looked for, whether or not a read would have succeeded, and no read
    error can arise. Only with [dryrun=False] does it read the content
    and then test the marker: an exception of the read is the outcome; a
    text with the marker gives [path] with the world the read left; a text
    without it goes on to the write of the substituted text. *)
Theorem dry_run_precedes_read (path : string) (w : W) :
  process_file path true w = (Returned (PyStr path), w) /\
  (forall e w1,
     read_text path w = (Raised e, w1) ->
     process_file path false w = (Raised e, w1)) /\
  (forall buffer w1,
     read_text path w = (Returned buffer, w1) ->
     contains marker buffer = true ->
     process_file path false w = (Returned (PyStr path), w1)) /\
  (forall buffer w1,
     read_text path w = (Returned buffer, w1) ->
     contains marker buffer = false ->
     process_file path false w =
     match write_text path (substitute buffer) w1 with
     | (Returned _, w2) => (Returned PyNone, w2)
     | (Raised e, w2) => (Raised e, w2)
     end).
Proof.
  split; [apply process_file_dry|]. split; [|split].
  - intros e w1 Hr. by apply process_file_read_raised.
  - intros buffer w1 Hr Hm. by eapply process_file_marked.
  - intros buffer w1 Hr Hm. unfold process_file, bind. by rewrite Hr, Hm.
Qed.


End errors.

Lemma dry_run_precedes_read_witness :
  process_file "Content/gone.xml" true empty_fs
  = (Returned (PyStr "Content/gone.xml"), empty_fs) /\
  process_file "Content/menu.xml" true (single "Content/menu.xml" unpadded)
  = (Returned (PyStr "Content/menu.xml"), single "Content/menu.xml" unpadded) /\
  process_file "Content/gone.xml" false empty_fs
  = (Raised FileNotFoundError, empty_fs) /\
  process_file "Content/menu.xml" false
    (single "Content/menu.xml" (substitute unpadded))
  = (Returned (PyStr "Content/menu.xml"),
     MkFS (files (single "Content/menu.xml" (substitute unpadded)))
          (read_events "Content/menu.xml")) /\
  process_file "Content/menu.xml" false (single "Content/menu.xml" unpadded)
  = (Returned PyNone,
     MkFS {[ "Content/menu.xml" := RegularFile (substitute unpadded) true true ]}
          (read_events "Content/menu.xml"
             ++ write_events "Content/menu.xml" (substitute unpadded))).
Proof.
  split; [|split; [|split; [|split]]].
  - apply (proj1 (dry_run_precedes_read "Content/gone.xml" empty_fs)).
  - apply (proj1 (dry_run_precedes_read "Content/menu.xml"
                    (single "Content/menu.xml" unpadded))).
  - apply (proj1 (proj2 (dry_run_precedes_read "Content/gone.xml" empty_fs))).
    reflexivity.
  - apply (proj1 (proj2 (proj2
             (dry_run_precedes_read "Content/menu.xml"
                (single "Content/menu.xml" (substitute unpadded)))))
             (substitute unpadded));
      reflexivity.
  - etrans.
    + apply (proj2 (proj2 (proj2
               (dry_run_precedes_read "Content/menu.xml"
                  (single "Content/menu.xml" unpadded))))
               unpadded
               (MkFS (files (single "Content/menu.xml" unpadded))
                     (read_events "Content/menu.xml")));
        reflexivity.
    + by vm_compute.
Defined.


(** *** The marker check is a substring search *)

(** C9: there is a file that has the marker only inside an unrelated
    element name, has its closing tag and has no inserted line, and that
    [process_file] returns from without writing, for either value of
    [dryrun], although the substitution would have changed it. *)
Theorem marker_false_positive :
  exists (st : memfs) (path : string) (data : text),
    files st !! path = Some (RegularFile data true true) /\
    contains marker data = true /\
    contains closing_tag data = true /\
    contains padding_line data = false /\
    substitute data <> data /\
    forall dryrun : bool,
      fst (process_file path dryrun st) = Returned (PyStr path) /\
      files (snd (process_file path dryrun st)) = files st /\
      List.filter is_write (trace (snd (process_file path dryrun st))) = [].
Proof.
  exists (single "Content/menu.xml" inner_padding), "Content/menu.xml",
    inner_padding.
  repeat split; try by vm_compute.
  all: by destruct dryrun; vm_compute.
Qed.

(** *** Files without the closing tag *)

(** C10: for a readable and writable file whose content contains neither
    the marker nor the closing tag, [process_file] with [dryrun=False] opens
    the file for writing and writes the text it read: the trace gains the
    read and then the write of the same text, and the files are as before. *)
Theorem untagged_file_rewritten (st : memfs) (path : string) (data : text) :
  files st !! path = Some (RegularFile data true true) ->
  contains marker data = false ->
  contains closing_tag data = false ->
  process_file path false st
  = (Returned PyNone,
     MkFS (files st)
          (trace st ++ read_events path ++ write_events path data)).
Proof.
  intros Hf Hm Ht. rewrite (process_file_mem_written _ _ _ Hf Hm).
  rewrite (substitute_absent data Ht). by rewrite (insert_id _ _ _ Hf).
Qed.

Lemma untagged_file_rewritten_witness :
  process_file "Content/menu.xml" false (single "Content/menu.xml" untagged)
  = (Returned PyNone,
     MkFS (files (single "Content/menu.xml" untagged))
          (trace (single "Content/menu.xml" untagged)
             ++ read_events "Content/menu.xml"
             ++ write_events "Content/menu.xml" untagged)).
Proof.
  apply (untagged_file_rewritten (single "Content/menu.xml" untagged));
    reflexivity.
Defined.

(** *** Further properties *)

Section further.
Context {W : Type} `{FileIO W}.

(** X2: when the text read contains neither the marker nor the closing tag,
    [process_file] with [dryrun=False] still runs the write block, with the
    text as it was read; the outcome and the world are the write's. *)
Theorem untagged_write_attempted (path : string) (w w1 : W) (buffer : text) :
  read_text path w = (Returned buffer, w1) ->
  contains marker buffer = false ->
  contains closing_tag buffer = false ->
  process_file path false w =
  match write_text path buffer w1 with
  | (Returned _, w2) => (Returned PyNone, w2)
  | (Raised e, w2) => (Raised e, w2)
  end.
Proof.
  intros Hr Hm Ht. unfold process_file, bind.
  by rewrite Hr, Hm, (substitute_absent buffer Ht).
Qed.

End further.

Lemma untagged_write_attempted_witness :
  process_file "Content/menu.xml" false (read_only "Content/menu.xml" untagged)
  = (Raised PermissionError,
     MkFS (files (read_only "Content/menu.xml" untagged))
          (read_events "Content/menu.xml")).
Proof.
  etrans.
  - apply (untagged_write_attempted "Content/menu.xml"
             (read_only "Content/menu.xml" untagged)
             (MkFS (files (read_only "Content/menu.xml" untagged))
                   (read_events "Content/menu.xml"))
             untagged);
      reflexivity.
  - reflexivity.
Defined.

(** X3: the scenario of a file with one closing tag and no marker. After
    one pass with [dryrun=False] the inserted line stands in front of the
    closing tag and the rest is as it was; replacing the first occurrence
    only gives the same text. *)
Theorem single_tag_scenario (st : memfs) (path : string) (before after : text) :
  files st !! path
  = Some (RegularFile (before ++ closing_tag ++ after) true true) ->
  contains marker (before ++ closing_tag ++ after) = false ->
  contains closing_tag before = false ->
  contains closing_tag after = false ->
  content (snd (process_file path false st)) path
  = Some (before ++ padding_line ++ closing_tag ++ after) /\
  Spec.substitute_first_only (before ++ closing_tag ++ after)
  = before ++ padding_line ++ closing_tag ++ after.
Proof.
  intros Hf Hm Hb Ha. split.
  - rewrite (content_after_write _ _ _ Hf Hm). f_equal.
    unfold substitute. rewrite replace_all_single
      by (done || apply closing_tag_unbordered || apply closing_tag_nonempty).
    unfold padded_tag. by rewrite <- !app_assoc.
  - unfold Spec.substitute_first_only.
    rewrite replace_once_join
      by (done || apply closing_tag_unbordered || apply closing_tag_nonempty).
    unfold padded_tag. by rewrite <- !app_assoc.
Qed.

Lemma single_tag_scenario_witness :
  content (snd (process_file "Content/menu.xml" false
                  (single "Content/menu.xml"
                     (str "<Asset>" ++ closing_tag ++ [newline]))))
          "Content/menu.xml"
  = Some (str "<Asset>" ++ padding_line ++ closing_tag ++ [newline]) /\
  Spec.substitute_first_only (str "<Asset>" ++ closing_tag ++ [newline])
  = str "<Asset>" ++ padding_line ++ closing_tag ++ [newline].
Proof.
  apply (single_tag_scenario
           (single "Content/menu.xml" (str "<Asset>" ++ closing_tag ++ [newline]))
           "Content/menu.xml" (str "<Asset>") [newline]);
    reflexivity.
Defined.

(** ** More about a run of [process_file] *)
Module RunFacts.
Import PyStr PyStrFacts Hook HookFacts MemFS MemFSFacts.

(** The whole of a run with [dryrun=False], by what is at [path]. *)
Lemma process_file_mem_run st path :
  process_file path false st =
  match files st !! path with
  | None => (Raised FileNotFoundError, st)
  | Some Directory => (Raised IsADirectoryError, st)
  | Some (RegularFile data false _) => (Raised PermissionError, st)
  | Some (RegularFile data true w) =>
      if contains marker data then
        (Returned (PyStr path), MkFS (files st) (trace st ++ read_events path))
      else if w then
        (Returned PyNone,
         MkFS (<[path := RegularFile (substitute data) true true]> (files st))
              (trace st ++ read_events path
                 ++ write_events path (substitute data)))
      else
        (Raised PermissionError, MkFS (files st) (trace st ++ read_events path))
  end.
Proof.
  destruct (files st !! path) as [[|data [] w]|] eqn:Hf.
  - by apply process_file_read_raised, read_text_directory.
  - destruct (contains marker data) eqn:Hm.
    + by eapply process_file_mem_marked.
    + destruct w.
      * by apply process_file_mem_written.
      * by apply (process_file_mem_denied _ _ data).
  - eapply process_file_read_raised. by eapply read_text_denied.
  - by apply process_file_read_raised, read_text_missing.
Qed.

(** A run on one path leaves the entry of any other path alone. *)
Lemma run_lookup_ne st path dryrun other :
  other <> path ->
  files (snd (process_file path dryrun st)) !! other = files st !! other.
Proof.
  intros Hne. destruct dryrun; [done|]. rewrite process_file_mem_files.
  destruct (files st !! path) as [[|data [] []]|]; try done.
  destruct (contains marker data); [done|]. by rewrite lookup_insert_ne.
Qed.

Lemma padded_tag_unbordered : unbordered padded_tag = true.
Proof. by vm_compute. Qed.

Lemma padded_tag_nonempty : padded_tag <> [].
Proof. discriminate. Qed.

(** A text without the closing tag has no padded tag either. *)
Lemma padded_tag_absent p :
  contains closing_tag p = false -> contains padded_tag p = false.
Proof.
  intros Hp. destruct (contains padded_tag p) eqn:Hc; [|done].
  apply contains_spec in Hc as (a & b & ->).
  rewrite <- Hp. symmetry. apply contains_spec.
  exists (a ++ padding_line), b. unfold padded_tag. by rewrite <- !app_assoc.
Qed.

(** Joining with a longer separator gives a longer text, strictly so when
    there is a separator at all. *)
Lemma length_join_grows (old new : text) (parts : list text) :
  length old < length new ->
  length (join old parts) <= length (join new parts) /\
  (2 <= length parts -> length (join old parts) < length (join new parts)).
Proof.
  intros Hlt. induction parts as [|p ps [IH _]]; [simpl; lia|].
  destruct ps as [|q ps]; [simpl; lia|].
  change (join old (p :: q :: ps)) with (p ++ old ++ join old (q :: ps)).
  change (join new (p :: q :: ps)) with (p ++ new ++ join new (q :: ps)).
  rewrite !length_app. lia.
Qed.

(** On a text that has the closing tag the substitution adds characters. *)
Lemma substitute_grows s :
  contains closing_tag s = true -> length s < length (substitute s).
Proof.
  intros Hs.
  destruct (split_at_occurrences closing_tag s closing_tag_nonempty)
    as (parts & Hne & -> & Hall).
  unfold substitute.
  rewrite replace_join
    by (done || apply closing_tag_unbordered || apply closing_tag_nonempty).
  apply length_join_grows; [vm_compute; lia|].
  destruct parts as [|p [|q ps]]; [done | | simpl; lia].
  apply Forall_inv in Hall. simpl in Hs. congruence.
Qed.

End RunFacts.

Import RunFacts Observe.

(** *** What a run leaves alone *)

(** X4: a run of [process_file] on [path], dry or not, leaves the entry of
    every other path as it was. *)
Theorem other_files_untouched (st : memfs) (path other : string)
    (dryrun : bool) :
  other <> path ->
  files (snd (process_file path dryrun st)) !! other = files st !! other.
Proof.
  intros Hne. destruct dryrun; [done|]. rewrite process_file_mem_run.
  destruct (files st !! path) as [[|data [] w]|]; try done.
  destruct (contains marker data); [done|]. destruct w; [|done].
  cbn [snd files]. by rewrite lookup_insert_ne.
Qed.

Lemma other_files_untouched_witness :
  files (snd (process_file "Content/menu.xml" false
                (MkFS {[ "Content/menu.xml" := RegularFile unpadded true true;
                         "Content/hud.xml" := RegularFile unpadded true true ]}
                      [])))
    !! "Content/hud.xml"
  = Some (RegularFile unpadded true true).
Proof.
  etrans.
  - apply (other_files_untouched _ "Content/menu.xml" "Content/hud.xml" false).
    discriminate.
  - reflexivity.
Defined.

(** X5: a run of [process_file] creates no file, removes none, turns no
    file into a directory or back, and changes no permission: at every
    path, what is there keeps its kind and its mode. *)
Theorem modes_preserved (st : memfs) (path : string) (dryrun : bool)
    (p : string) :
  node_mode <$> files (snd (process_file path dryrun st)) !! p
  = node_mode <$> files st !! p.
Proof.
  destruct (decide (p = path)) as [->|Hne]; [|by rewrite run_lookup_ne].
  destruct dryrun; [done|]. rewrite process_file_mem_files.
  destruct (files st !! path) as [[|data [] []]|] eqn:Hf; try by rewrite Hf.
  destruct (contains marker data); [by rewrite Hf|].
  by rewrite lookup_insert_eq.
Qed.


(** *** The substitution as a function on texts *)

(** X7: the substitution loses nothing: putting the closing tag back in
    place of every padded tag gives the text the substitution started
    from, whatever that text was. *)
Theorem substitute_undone (data : text) :
  replace padded_tag closing_tag (-1) (substitute data) = data.
Proof.
  destruct (split_at_occurrences closing_tag data closing_tag_nonempty)
    as (parts & _ & -> & Hall).
  unfold substitute.
  rewrite replace_join
    by (done || apply closing_tag_unbordered || apply closing_tag_nonempty).
  apply replace_join;
    [apply padded_tag_unbordered | apply padded_tag_nonempty |].
  eapply Forall_impl; [exact Hall|]. intros p. apply padded_tag_absent.
Qed.

(** X8: on a text that has the closing tag, the substitution gives a
    strictly longer text that still has the closing tag, so substituting
    again changes the text again: the substitution alone is not
    idempotent, only the marker test in front of it makes a second run
    harmless. *)
Theorem substitute_repeats (data : text) :
  contains closing_tag data = true ->
  length data < length (substitute data) /\
  contains closing_tag (substitute data) = true /\
  substitute (substitute data) <> substitute data.
Proof.
  intros Ht.
  assert (contains closing_tag (substitute data) = true) as Ht'.
  { by apply replace_contains; [apply closing_tag_nonempty | |]. }
  repeat split; [by apply substitute_grows | done |].
  intros Heq. apply (f_equal length) in Heq.
  pose proof (substitute_grows _ Ht'). lia.
Qed.

Lemma substitute_repeats_witness :
  length unpadded < length (substitute unpadded) /\
  contains closing_tag (substitute unpadded) = true /\
  substitute (substitute unpadded) <> substitute unpadded.
Proof. apply (substitute_repeats unpadded). reflexivity. Defined.

(** *** Runs one after another *)

(** X9: runs on two different paths do not interact: the outcome of the run
    on the second path is the same whether or not the first was processed
    before it, and the files at the end are the same in either order. *)
Theorem distinct_paths_commute (st : memfs) (p1 p2 : string) :
  p1 <> p2 ->
  fst (process_file p2 false (snd (process_file p1 false st)))
  = fst (process_file p2 false st) /\
  files (snd (process_file p2 false (snd (process_file p1 false st))))
  = files (snd (process_file p1 false (snd (process_file p2 false st)))).
Proof.
  intros Hne.
  assert (files (snd (process_file p1 false st)) !! p2 = files st !! p2) as H12
    by (by apply run_lookup_ne).
  assert (files (snd (process_file p2 false st)) !! p1 = files st !! p1) as H21
    by (by apply run_lookup_ne).
  split.
  - rewrite (process_file_mem_run (snd (process_file p1 false st)) p2), H12.
    rewrite (process_file_mem_run st p2).
    destruct (files st !! p2) as [[|d2 [] w2]|]; try done.
    destruct (contains marker d2); [done|]. by destruct w2.
  - rewrite (process_file_mem_files (snd (process_file p1 false st)) p2), H12.
    rewrite (process_file_mem_files (snd (process_file p2 false st)) p1), H21.
    rewrite !process_file_mem_files.
    destruct (files st !! p1) as [[|d1 [] []]|];
      destruct (files st !! p2) as [[|d2 [] []]|]; try done;
      repeat (destruct (contains marker _)); try done.
    by apply insert_insert_ne.
Qed.

Lemma distinct_paths_commute_witness :
  fst (process_file "Content/hud.xml" false
         (snd (process_file "Content/menu.xml" false
                 (MkFS {[ "Content/menu.xml" := RegularFile unpadded true true;
                          "Content/hud.xml" := RegularFile two_assets true true ]}
                       []))))
  = fst (process_file "Content/hud.xml" false
           (MkFS {[ "Content/menu.xml" := RegularFile unpadded true true;
                    "Content/hud.xml" := RegularFile two_assets true true ]}
                 [])) /\
  files (snd (process_file "Content/hud.xml" false
                (snd (process_file "Content/menu.xml" false
                        (MkFS {[ "Content/menu.xml" := RegularFile unpadded true true;
                                 "Content/hud.xml" := RegularFile two_assets true true ]}
                              [])))))
  = files (snd (process_file "Content/menu.xml" false
                  (snd (process_file "Content/hud.xml" false
                          (MkFS {[ "Content/menu.xml" := RegularFile unpadded true true;
                                   "Content/hud.xml" := RegularFile two_assets true true ]}
                                []))))).
Proof.
  apply (distinct_paths_commute _ "Content/menu.xml" "Content/hud.xml").
  discriminate.
Defined.

(** X10: after a run with [dryrun=False] that put the inserted line into a
    file, the next run on it only reads the file and returns [path]: the
    first run returned [None], the second returns the path and writes
    nothing. *)
Theorem second_run_reports_path (st : memfs) (path : string) (data : text) :
  files st !! path = Some (RegularFile data true true) ->
  contains marker data = false ->
  contains closing_tag data = true ->
  fst (process_file path false st) = Returned PyNone /\
  process_file path false (snd (process_file path false st))
  = (Returned (PyStr path),
     MkFS (<[path := RegularFile (substitute data) true true]> (files st))
          (trace st ++ read_events path
             ++ write_events path (substitute data) ++ read_events path)).
Proof.
  intros Hf Hm Ht. rewrite (process_file_mem_written _ _ _ Hf Hm).
  split; [done|]. cbn [snd].
  erewrite process_file_mem_marked.
  - cbn [files trace]. by rewrite <- !app_assoc.
  - cbn [files]. apply lookup_insert_eq.
  - by apply substitute_marked.
Qed.

Lemma second_run_reports_path_witness :
  fst (process_file "Content/menu.xml" false (single "Content/menu.xml" unpadded))
  = Returned PyNone /\
  process_file "Content/menu.xml" false
    (snd (process_file "Content/menu.xml" false
            (single "Content/menu.xml" unpadded)))
  = (Returned (PyStr "Content/menu.xml"),
     MkFS (<["Content/menu.xml" := RegularFile (substitute unpadded) true true]>
             (files (single "Content/menu.xml" unpadded)))
          (trace (single "Content/menu.xml" unpadded)
             ++ read_events "Content/menu.xml"
             ++ write_events "Content/menu.xml" (substitute unpadded)
             ++ read_events "Content/menu.xml")).
Proof.
  apply (second_run_reports_path (single "Content/menu.xml" unpadded));
    reflexivity.
Defined.

(** *** When a run changes the files *)

(** X12: a run with [dryrun=False] changes the files exactly when [path]
    is a readable and writable file whose text has the closing tag and not
    the marker; in every other case the files are as before. *)
Theorem files_change_iff (st : memfs) (path : string) :
  files (snd (process_file path false st)) <> files st <->
  exists data,
    files st !! path = Some (RegularFile data true true) /\
    contains marker data = false /\
    contains closing_tag data = true.
Proof.
  rewrite process_file_mem_files.
  destruct (files st !! path) as [[|data [] []]|] eqn:Hf;
    try (split; [done | by intros (? & [=] & _)]).
  destruct (contains marker data) eqn:Hm.
  { split; [done|]. intros (d & [= <-] & Hm' & _). congruence. }
  destruct (contains closing_tag data) eqn:Ht.
  - split; [by exists data|]. intros _ Heq.
    apply (f_equal (fun m => m !! path)) in Heq.
    rewrite lookup_insert_eq, Hf in Heq. injection Heq as Heq.
    apply (f_equal length) in Heq.
    pose proof (substitute_grows _ Ht). lia.
  - split.
    + intros Hneq. exfalso. apply Hneq.
      rewrite (substitute_absent data Ht). by apply insert_id.
    + intros (d & [= <-] & _ & Ht'). congruence.
Qed.
